(** * Wikipedia country outline service: a shallow embedding of [main.py]

    The service fetches the Wikipedia article of a country, extracts its
    heading tags (h1 .. h6) in document order and renders them as a Markdown
    outline.  This file embeds the four functions of [main.py]

      - [fetch_wikipedia_page]       (lines 19-31)
      - [extract_headings]           (lines 33-51)
      - [generate_markdown_outline]  (lines 53-66)
      - [get_country_outline]        (lines 68-97)

    and proves properties of them.

    Python values are modelled as follows.  A [str] is a sequence of Unicode
    code points, so a list of [N]; an [int] is a [Z]; a list is a [list]; a
    tuple is a pair.  A function that can raise returns a [result]: either
    the value or the exception, and [try ... except] is a match on it.  The
    libraries the program calls are not part of the repository: the HTML
    parser and the HTTP client are parameters of the development (either
    of them can fail: the parser rejects some markup, the client raises),
    and the
    small library functions ([str.strip], [str.replace], [in], [str.join],
    [find_all], [get_text], [urllib.parse.quote]) are written out the way
    their documentation describes them. *)

From Stdlib Require Import List NArith ZArith Bool Ascii String Lia.
Import ListNotations.

Local Open Scope list_scope.

(** ** Python strings *)

Module Py.

(** A [str] is a sequence of code points. *)
Definition str := list N.

(** A literal of the source, written as a Rocq string of ASCII characters. *)
Definition lit (s : string) : str := map N_of_ascii (list_ascii_of_string s).

(** The line feed of ["\n"]. *)
Definition LF : N := 10%N.

(** [str.isspace] on one code point: the white space of CPython's
    [_PyUnicode_IsWhitespace], the characters [str.strip()] removes. *)
Definition isspace (c : N) : bool :=
  ((9 <=? c) && (c <=? 13) || (28 <=? c) && (c <=? 32)
   || (c =? 133) || (c =? 160) || (c =? 5760)
   || (8192 <=? c) && (c <=? 8202)
   || (c =? 8232) || (c =? 8233) || (c =? 8239) || (c =? 8287)
   || (c =? 12288))%N.

Fixpoint lstrip (s : str) : str :=
  match s with
  | [] => []
  | c :: s' => if isspace c then lstrip s' else s
  end.

Definition rstrip (s : str) : str := rev (lstrip (rev s)).

(** [s.strip()]: white space removed at both ends. *)
Definition strip (s : str) : str := rstrip (lstrip s).

(** [s.startswith(p)]. *)
Fixpoint startswith (p s : str) : bool :=
  match p, s with
  | [], _ => true
  | _ :: _, [] => false
  | a :: p', b :: s' => (a =? b)%N && startswith p' s'
  end.

(** [sub in s]: [sub] occurs in [s] as a contiguous substring. *)
Fixpoint contains (sub s : str) : bool :=
  startswith sub s ||
  match s with
  | [] => false
  | _ :: s' => contains sub s'
  end.

(** The scan of [str.replace] for a non-empty [old]: left to right, each
    occurrence found is replaced and the scan resumes after it.  [skip]
    counts the characters of the occurrence still to be passed over. *)
Fixpoint replace_scan (old new : str) (skip : nat) (s : str) : str :=
  match s with
  | [] => []
  | c :: s' =>
      match skip with
      | S k => replace_scan old new k s'
      | O =>
          if startswith old s
          then new ++ replace_scan old new (List.length old - 1) s'
          else c :: replace_scan old new 0 s'
      end
  end.

(** [s.replace(old, new)].  With an empty [old], Python inserts [new]
    before every character and at the end. *)
Definition replace (old new s : str) : str :=
  match old with
  | [] => new ++ flat_map (fun c => c :: new) s
  | _ :: _ => replace_scan old new 0 s
  end.

(** [sep.join(parts)]. *)
Fixpoint join (sep : str) (parts : list str) : str :=
  match parts with
  | [] => []
  | [p] => p
  | p :: ps => p ++ sep ++ join sep ps
  end.

(** [c * n] for a one-character string [c] and an [int] [n]: empty when
    [n <= 0]. *)
Definition repeat_char (c : N) (n : Z) : str := repeat c (Z.to_nat n).

(** The truth value of a string in a condition: non-empty. *)
Definition truthy (s : str) : bool :=
  match s with [] => false | _ :: _ => true end.

End Py.

Import Py.

(** ** Exceptions *)

(** The response object of the HTTP client: the fields the program reads. *)
Record Response : Type := mkResponse {
  status_code : Z;
  text : str
}.

(** The exceptions that occur, all subclasses of [Exception].  [HTTPError]
    is the one of [requests]; it carries the response, as
    [raise_for_status] builds it.  [RequestException] stands for the other
    failures of the HTTP client (connection, timeout, ...).
    [ParserRejectedMarkup] is the one the [BeautifulSoup] constructor
    raises when the underlying parser gives up on the markup. *)
Inductive exn : Type :=
| HTTPError (response : Response)
| RequestException (detail : str)
| ParserRejectedMarkup
| UnicodeEncodeError (position : nat)
| AttributeError
| IndexError
| ValueError (literal : str).

(** The outcome of a call: a value, or an exception raised. *)
Inductive result (A : Type) : Type :=
| Ok (a : A)
| Raise (e : exn).

Arguments Ok {A} a.
Arguments Raise {A} e.

Definition bind {A B} (r : result A) (k : A -> result B) : result B :=
  match r with
  | Ok a => k a
  | Raise e => Raise e
  end.

Notation "x <- r ;; k" := (bind r (fun x => k))
  (at level 61, r at next level, right associativity).

(** A [for] loop whose body can raise: the state is threaded through the
    elements from left to right and the first exception ends the loop. *)
Fixpoint for_each {A S} (body : S -> A -> result S) (xs : list A) (s : S)
  : result S :=
  match xs with
  | [] => Ok s
  | x :: xs' => s' <- body s x ;; for_each body xs' s'
  end.

(** [try: body except Exception as e: handler(e)]. *)
Definition try_except {A} (body : result A) (handler : exn -> result A)
  : result A :=
  match body with
  | Ok a => Ok a
  | Raise e => handler e
  end.

(** ** URL quoting: [urllib.parse.quote] *)

Module Urllib.

(** [str.encode('utf-8', 'strict')] on one code point.  Surrogates (and
    values beyond the Unicode range) cannot be encoded. *)
Definition utf8_encode_char (c : N) : option (list N) :=
  (if c <? 128 then Some [c]
   else if c <? 2048 then Some [192 + c / 64; 128 + c mod 64]
   else if (55296 <=? c) && (c <=? 57343) then None
   else if c <? 65536
        then Some [224 + c / 4096; 128 + (c / 64) mod 64; 128 + c mod 64]
   else if c <=? 1114111
        then Some [240 + c / 262144; 128 + (c / 4096) mod 64;
                   128 + (c / 64) mod 64; 128 + c mod 64]
   else None)%N.

(** The bytes of a string, or [UnicodeEncodeError] at the first character
    that cannot be encoded. *)
Fixpoint utf8_encode_from (pos : nat) (s : str) : result (list N) :=
  match s with
  | [] => Ok []
  | c :: s' =>
      match utf8_encode_char c with
      | None => Raise (UnicodeEncodeError pos)
      | Some bs => rest <- utf8_encode_from (S pos) s' ;; Ok (bs ++ rest)
      end
  end.

Definition utf8_encode (s : str) : result (list N) := utf8_encode_from 0 s.

(** The bytes [quote] leaves as they are: the unreserved characters
    (letters, digits, [_.-~]) and the default [safe='/']. *)
Definition is_safe (b : N) : bool :=
  ((65 <=? b) && (b <=? 90) || (97 <=? b) && (b <=? 122)
   || (48 <=? b) && (b <=? 57)
   || (b =? 95) || (b =? 46) || (b =? 45) || (b =? 126)
   || (b =? 47))%N.

(** An upper-case hexadecimal digit. *)
Definition hex_digit (n : N) : N := (if n <? 10 then 48 + n else 55 + n)%N.

(** [quote_from_bytes]: a safe byte stays, any other becomes [%XX]. *)
Definition quote_byte (b : N) : str :=
  if is_safe b then [b] else [37%N; hex_digit (b / 16); hex_digit (b mod 16)].

Definition quote_from_bytes (bs : list N) : str := flat_map quote_byte bs.

(** [urllib.parse.quote(string)] with its default arguments. *)
Definition quote (s : str) : result str :=
  match s with
  | [] => Ok s
  | _ :: _ => bs <- utf8_encode s ;; Ok (quote_from_bytes bs)
  end.

End Urllib.

(** ** The tag tree of BeautifulSoup *)

Module Bs4.

(** The classes of string nodes.  [get_text] keeps the first two only. *)
Inductive string_class : Type :=
| NavigableString | CData
| Comment | Declaration | Doctype | ProcessingInstruction
| Script | Stylesheet | TemplateString | RubyTextString
| RubyParenthesisString.

(** A node of the parsed document: a tag with its name, attributes and
    children, or a string. *)
#[warnings="-register-all"]
Inductive PageElement : Type :=
| Tag (name : str) (attrs : list (str * str)) (contents : list PageElement)
| Text (cls : string_class) (s : str).

(** [element.descendants]: every node below the element, in document
    order (pre-order, depth first). *)
Fixpoint descendants (e : PageElement) : list PageElement :=
  match e with
  | Tag _ _ cs => flat_map (fun c => c :: descendants c) cs
  | Text _ _ => []
  end.

Definition str_eqb (a b : str) : bool :=
  if list_eq_dec N.eq_dec a b then true else false.

(** Whether a node is a tag with one of the given names. *)
Definition name_matches (names : list str) (e : PageElement) : bool :=
  match e with
  | Tag n _ _ => existsb (str_eqb n) names
  | Text _ _ => false
  end.

(** [element.find_all(names)]: the descendant tags whose name is one of
    [names], in document order. *)
Definition find_all (names : list str) (e : PageElement) : list PageElement :=
  filter (name_matches names) (descendants e).

Definition interesting (cls : string_class) : bool :=
  match cls with
  | NavigableString | CData => true
  | _ => false
  end.

(** The string a node contributes to [get_text]. *)
Definition own_text (e : PageElement) : str :=
  match e with
  | Text cls s => if interesting cls then s else []
  | Tag _ _ _ => []
  end.

(** [tag.get_text()]: the descendant strings concatenated, with no
    separator. *)
Definition get_text (e : PageElement) : str :=
  flat_map own_text (descendants e).

(** [tag.name]; a string node has no such attribute. *)
Definition tag_name (e : PageElement) : result str :=
  match e with
  | Tag n _ _ => Ok n
  | Text _ _ => Raise AttributeError
  end.

(** The object [BeautifulSoup(...)] returns: a tag named [[document]] that
    holds the top-level nodes. *)
Definition document (contents : list PageElement) : PageElement :=
  Tag (lit "[document]") [] contents.

End Bs4.

Import Urllib Bs4.

(** ** The libraries the program is linked with *)

(** What the program takes from outside: the HTML parser behind
    [BeautifulSoup(html, 'html.parser')], which turns a text into the
    top-level nodes of a tag tree or rejects it ([None]; the parser is
    lenient, yet some markup, such as a marked section with an unknown
    keyword, makes it give up); the HTTP client [requests.get], which
    answers with a response or raises; and [str(e)], the message of an
    exception. *)
Record Libraries : Type := mkLibraries {
  html_parser : str -> option (list PageElement);
  requests_get : str -> list (str * str) -> result Response;
  exn_str : exn -> str
}.

(** [response.raise_for_status()]: an [HTTPError] that carries the response
    when the status is a client or a server error (400 .. 599). *)
Definition raise_for_status (response : Response) : result unit :=
  if (400 <=? status_code response)%Z && (status_code response <? 600)%Z
  then Raise (HTTPError response)
  else Ok tt.

(** [s[i]] on a string. *)
Definition getitem (s : str) (i : nat) : result N :=
  match nth_error s i with
  | Some c => Ok c
  | None => Raise IndexError
  end.

(** [int(c)] on a one-character string.  The ASCII digits are converted;
    any other character is taken to raise [ValueError] (Python converts
    the decimal digits of other scripts too, which no tag name reaching
    this call contains). *)
Definition int_of_char (c : N) : result Z :=
  if (48 <=? c)%N && (c <=? 57)%N then Ok (Z.of_N c - 48)%Z
  else Raise (ValueError [c]).

(** ** The program *)

(** A heading: the pair [(level, text)]. *)
Definition heading : Type := (Z * str)%type.

(** The names [extract_headings] searches for. *)
Definition heading_names : list str :=
  [lit "h1"; lit "h2"; lit "h3"; lit "h4"; lit "h5"; lit "h6"].

(** The marker of Wikipedia's section edit links. *)
Definition edit_marker : str := lit "[edit]".

Definition user_agent : str :=
  lit "GlobalEdu Educational Platform/1.0 (Educational Purpose)".

Definition request_headers : list (str * str) :=
  [(lit "User-Agent", user_agent)].

Definition wiki_prefix : str := lit "https://en.wikipedia.org/wiki/".

(** Lines 22-23 of [fetch_wikipedia_page]: the URL requested. *)
Definition wikipedia_url (country : str) : result str :=
  let country_formatted := replace (lit " ") (lit "_") (strip country) in
  quoted <- quote country_formatted ;;
  Ok (wiki_prefix ++ quoted).

(** [fetch_wikipedia_page(country)], lines 19-31. *)
Definition fetch_wikipedia_page (L : Libraries) (country : str) : result str :=
  url <- wikipedia_url country ;;
  let headers := request_headers in
  response <- requests_get L url headers ;;
  _ <- raise_for_status response ;;
  Ok (text response).

(** The body of the loop of [extract_headings], lines 40-49: one tag is
    inspected and the list of headings is extended or left as it is. *)
Definition heading_step (headings : list heading) (tag : PageElement)
  : result (list heading) :=
  name <- tag_name tag ;;
  digit <- getitem name 1 ;;
  level <- int_of_char digit ;;
  let text := strip (get_text tag) in
  if truthy text && negb (contains edit_marker text)
  then
    let text := strip (replace edit_marker [] text) in
    Ok (headings ++ [(level, text)])
  else Ok headings.

(** The loop of [extract_headings] on a parsed document. *)
Definition extract_from_soup (soup : PageElement) : result (list heading) :=
  for_each heading_step (find_all heading_names soup) [].

(** [BeautifulSoup(markup, 'html.parser')], line 35: the document the
    parser builds, or [ParserRejectedMarkup] when it rejects the markup. *)
Definition BeautifulSoup (L : Libraries) (markup : str) : result PageElement :=
  match html_parser L markup with
  | Some nodes => Ok (document nodes)
  | None => Raise ParserRejectedMarkup
  end.

(** [extract_headings(html_content)], lines 33-51. *)
Definition extract_headings (L : Libraries) (html_content : str)
  : result (list heading) :=
  soup <- BeautifulSoup L html_content ;;
  extract_from_soup soup.

(** The line of one heading, line 63-64. *)
Definition heading_line (h : heading) : str :=
  let '(level, text) := h in
  let markdown_prefix := repeat_char 35%N level in
  markdown_prefix ++ lit " " ++ text.

(** [generate_markdown_outline(country, headings)], lines 53-66. *)
Definition generate_markdown_outline (country : str) (headings : list heading)
  : str :=
  let markdown_lines := [] in
  let markdown_lines := markdown_lines ++ [lit "## Contents" ++ [LF]] in
  let markdown_lines :=
    fold_left (fun lines h => lines ++ [heading_line h])
              headings markdown_lines in
  join [LF; LF] markdown_lines.

(** The [except] clauses of [get_country_outline], lines 91-97. *)
Definition outline_handler (L : Libraries) (country : str) (e : exn)
  : result str :=
  match e with
  | HTTPError response =>
      if (status_code response =? 404)%Z
      then Ok (lit "Error: Wikipedia page not found for '"
               ++ country ++ lit "'")
      else Ok (lit "Error fetching Wikipedia page: " ++ exn_str L e)
  | _ => Ok (lit "Error: " ++ exn_str L e)
  end.

(** [get_country_outline(country)], lines 68-97. *)
Definition get_country_outline (L : Libraries) (country : str) : result str :=
  try_except
    (html_content <- fetch_wikipedia_page L country ;;
     headings <- extract_headings L html_content ;;
     let outline := generate_markdown_outline country headings in
     Ok outline)
    (outline_handler L country).

(** ** Specification-side definitions *)

(** What the text of a heading tag becomes, as the specification words it:
    trimmed, the marker removed, trimmed again. *)
Definition cleaned (raw : str) : str :=
  strip (replace edit_marker [] (strip raw)).

(** A heading tag is kept when its trimmed text is non-empty and free of
    the marker. *)
Definition kept (tag : PageElement) : bool :=
  let t := strip (get_text tag) in
  truthy t && negb (contains edit_marker t).

(** The level a heading name stands for. *)
Definition level_of (name : str) : Z :=
  match nth_error name 1 with
  | Some c => Z.of_N c - 48
  | None => 0
  end.

(** The headings one node contributes: at most one. *)
Definition heading_of (e : PageElement) : list heading :=
  match e with
  | Tag n _ _ =>
      if name_matches heading_names e && kept e
      then [(level_of n, strip (get_text e))]
      else []
  | Text _ _ => []
  end.

(** The invariant of the data model on one heading. *)
Definition heading_ok (h : heading) : Prop :=
  (1 <= fst h <= 6)%Z /\
  strip (snd h) <> [] /\
  strip (replace edit_marker [] (snd h)) <> [].

(** All characters of a string are white space. *)
Definition all_space (s : str) : bool := forallb isspace s.

(** The characters a quoted path is made of: the safe ones and the percent
    sign that starts an escape. *)
Definition url_char (c : N) : bool := is_safe c || (c =? 37)%N.

(** The tag name of a heading of the given level: [h] and the digit. *)
Definition heading_name (level : Z) : str := lit "h" ++ [Z.to_N (48 + level)].

(** The header element of the outline, line 58. *)
Definition contents_header : str := lit "## Contents" ++ [LF].

(** ** Sample inputs *)

Definition heading_tag (name : string) (s : string) : PageElement :=
  Tag (lit name) [] [Text NavigableString (lit s)].

(** A document with three headings and a paragraph between them. *)
Definition sample_soup : PageElement :=
  document
    [ heading_tag "h2" "Intro";
      Tag (lit "div") []
        [ Tag (lit "p") [] [Text NavigableString (lit "Some text")];
          heading_tag "h3" "History" ];
      heading_tag "h2" "Geography" ].

(** A heading as Wikipedia marks it up: the title followed by the edit
    link. *)
Definition history_edit : PageElement :=
  Tag (lit "h2") []
    [ Tag (lit "span") [] [Text NavigableString (lit "History")];
      Tag (lit "span") [] [Text NavigableString (lit "[edit]")] ].

(** An HTTP client that answers every request with the given status and an
    empty body, next to a parser that finds no node and a message function
    that renders every exception as [boom]. *)
Definition answering (status : Z) : Libraries :=
  mkLibraries (fun _ => Some [])
              (fun _ _ => Ok (mkResponse status []))
              (fun _ => lit "boom").

(** An HTTP client that serves one page, parsed to [sample_soup]'s nodes. *)
Definition serving_sample : Libraries :=
  mkLibraries (fun _ => Some [heading_tag "h2" "Intro";
                              heading_tag "h3" "History";
                              heading_tag "h2" "Geography"])
              (fun _ _ => Ok (mkResponse 200 (lit "<html>")))
              (fun _ => lit "boom").

(** A marked section with an unknown keyword, which [html.parser] does not
    accept. *)
Definition bad_markup : str := lit "<![x y]>".

(** A parser that rejects the markup that opens a marked section and finds
    no node in any other, next to an HTTP client that serves [bad_markup]
    with status 200. *)
Definition serving_bad_markup : Libraries :=
  mkLibraries (fun markup =>
                 if startswith (lit "<![") markup then None else Some [])
              (fun _ _ => Ok (mkResponse 200 bad_markup))
              (fun _ => lit "boom").

(** A document with a blank heading, a marked heading and a tag that is no
    heading, each below the top level or behind other headings. *)
Definition mixed_soup : PageElement :=
  document
    [ heading_tag "h1" "Vanuatu";
      Tag (lit "div") []
        [ Tag (lit "h2") [] [Text NavigableString (lit "   ")];
          heading_tag "h2" "History[edit]";
          Tag (lit "h7") [] [Text NavigableString (lit "Deep")] ];
      heading_tag "h2" "Geography" ].

(** * Properties *)

(** ** Strings *)

Section StringFacts.

Lemma lstrip_all_space (s : str) : all_space s = true -> lstrip s = [].
Proof.
  induction s as [|c s IH]; simpl; [reflexivity|].
  intros H. apply andb_prop in H as [Hc Hs]. rewrite Hc. auto.
Qed.

Lemma lstrip_app (s t : str) :
  lstrip (s ++ t) = if all_space s then lstrip t else lstrip s ++ t.
Proof.
  induction s as [|c s IH]; simpl; [reflexivity|].
  destruct (isspace c); simpl; [exact IH | reflexivity].
Qed.

Lemma all_space_rev (s : str) : all_space (rev s) = all_space s.
Proof.
  unfold all_space. induction s as [|c s IH]; simpl; [reflexivity|].
  rewrite forallb_app, IH. simpl. rewrite andb_true_r. apply andb_comm.
Qed.

Lemma strip_all_space (s : str) : all_space s = true -> strip s = [].
Proof.
  intros H. unfold strip. rewrite (lstrip_all_space _ H). reflexivity.
Qed.

Lemma rstrip_app_space (s ws : str) :
  all_space ws = true -> rstrip (s ++ ws) = rstrip s.
Proof.
  intros H. unfold rstrip. rewrite rev_app_distr, lstrip_app.
  rewrite all_space_rev, H. reflexivity.
Qed.

(** White space around a string does not change what [strip] returns. *)
Lemma strip_surrounded (ws1 s ws2 : str) :
  all_space ws1 = true -> all_space ws2 = true ->
  strip (ws1 ++ s ++ ws2) = strip s.
Proof.
  intros H1 H2. unfold strip.
  rewrite lstrip_app, H1, lstrip_app.
  destruct (all_space s) eqn:Hs.
  - rewrite (lstrip_all_space _ H2), (lstrip_all_space _ Hs). reflexivity.
  - apply rstrip_app_space, H2.
Qed.

(** [lstrip] returns the empty string or one that starts with a character
    that is not white space. *)
Lemma lstrip_head (s : str) :
  lstrip s = [] \/ exists c u, lstrip s = c :: u /\ isspace c = false.
Proof.
  induction s as [|c s IH]; simpl; [now left|].
  destruct (isspace c) eqn:Hc; [exact IH|].
  right. now exists c, s.
Qed.

Lemma lstrip_fixed (c : N) (u : str) :
  isspace c = false -> lstrip (c :: u) = c :: u.
Proof. intros H. simpl. now rewrite H. Qed.

Lemma lstrip_idem (s : str) : lstrip (lstrip s) = lstrip s.
Proof.
  destruct (lstrip_head s) as [E | (c & u & E & Hc)]; rewrite E;
    [reflexivity | now apply lstrip_fixed].
Qed.

Lemma rstrip_idem (s : str) : rstrip (rstrip s) = rstrip s.
Proof.
  unfold rstrip. now rewrite rev_involutive, lstrip_idem.
Qed.

Lemma rstrip_keeps_head (c : N) (u : str) :
  isspace c = false -> exists w, rstrip (c :: u) = c :: w.
Proof.
  intros Hc. unfold rstrip. simpl rev. rewrite lstrip_app.
  destruct (all_space (rev u)).
  - exists []. simpl. now rewrite Hc.
  - exists (rev (lstrip (rev u))). now rewrite rev_app_distr.
Qed.

Lemma strip_idem (s : str) : strip (strip s) = strip s.
Proof.
  unfold strip at 2 3.
  destruct (lstrip_head s) as [E | (c & u & E & Hc)]; rewrite E.
  - reflexivity.
  - destruct (rstrip_keeps_head c u Hc) as [w Hw].
    unfold strip. rewrite Hw, (lstrip_fixed _ _ Hc), <- Hw. apply rstrip_idem.
Qed.

End StringFacts.

Section SubstringFacts.

Lemma startswith_prefix (p s : str) :
  startswith p s = true <-> exists b, s = p ++ b.
Proof.
  revert s. induction p as [|a p IH]; intros s; simpl.
  - split; [intros _; now exists s | reflexivity].
  - destruct s as [|c s]; [split; [discriminate | intros [b Hb]; discriminate]|].
    rewrite andb_true_iff, N.eqb_eq, IH. split.
    + intros [-> [b ->]]. now exists b.
    + intros [b Hb]. injection Hb as -> ->. split; [reflexivity | now exists b].
Qed.

Lemma contains_unfold (m s : str) :
  contains m s =
  startswith m s || match s with [] => false | _ :: s' => contains m s' end.
Proof. destruct s; reflexivity. Qed.

(** [contains] is the substring relation. *)
Lemma contains_occurrence (m s : str) :
  contains m s = true <-> exists a b, s = a ++ m ++ b.
Proof.
  split.
  - induction s as [|c s IH]; rewrite contains_unfold, orb_true_iff.
    + intros [H | H]; [|discriminate].
      apply startswith_prefix in H as [b Hb]. now exists [], b.
    + intros [H | H].
      * apply startswith_prefix in H as [b Hb]. now exists [], b.
      * destruct (IH H) as (a & b & ->). now exists (c :: a), b.
  - intros (a & b & ->). induction a as [|c a IH].
    + rewrite contains_unfold. simpl app.
      replace (startswith m (m ++ b)) with true; [reflexivity|].
      symmetry. apply startswith_prefix. now exists b.
    + simpl app. rewrite contains_unfold, IH. apply orb_true_r.
Qed.

Lemma contains_rev (m s : str) :
  contains m s = true -> contains (rev m) (rev s) = true.
Proof.
  rewrite !contains_occurrence. intros (a & b & ->).
  exists (rev b), (rev a). now rewrite !rev_app_distr, app_assoc.
Qed.

(** An occurrence that starts with a character that is not white space
    survives [lstrip]. *)
Lemma contains_lstrip (c : N) (m s : str) :
  isspace c = false ->
  contains (c :: m) s = true -> contains (c :: m) (lstrip s) = true.
Proof.
  intros Hc. induction s as [|d s IH]; [trivial|].
  simpl lstrip. destruct (isspace d) eqn:Hd; [|trivial].
  rewrite contains_unfold. simpl startswith.
  destruct (N.eqb_spec c d) as [->|_]; [congruence|].
  simpl. exact IH.
Qed.

Lemma contains_rstrip (c : N) (m s : str) :
  isspace c = false ->
  contains (m ++ [c]) s = true -> contains (m ++ [c]) (rstrip s) = true.
Proof.
  intros Hc H. apply contains_rev in H.
  rewrite rev_app_distr in H. simpl in H.
  apply (contains_lstrip _ _ _ Hc) in H. apply contains_rev in H.
  simpl in H. now rewrite rev_involutive in H.
Qed.

(** The marker has no white space at its ends, so trimming keeps each of
    its occurrences. *)
Lemma contains_marker_strip (s : str) :
  contains edit_marker s = true -> contains edit_marker (strip s) = true.
Proof.
  intros H. unfold strip.
  apply (contains_rstrip 93%N (lit "[edit") _ eq_refl).
  apply (contains_lstrip 91%N (lit "edit]") _ eq_refl). exact H.
Qed.

(** [replace] leaves a string without occurrence as it is. *)
Lemma replace_scan_absent (old new s : str) :
  contains old s = false -> replace_scan old new 0 s = s.
Proof.
  induction s as [|c s IH]; [reflexivity|].
  rewrite contains_unfold, orb_false_iff. intros [H1 H2].
  cbn [replace_scan]. rewrite H1. f_equal. auto.
Qed.

Lemma replace_absent (old new s : str) :
  contains old s = false -> replace old new s = s.
Proof.
  destruct old as [|a old]; [destruct s; discriminate|].
  apply replace_scan_absent.
Qed.

(** Replacing one character by another is a map over the string. *)
Lemma replace_char (a b : N) (s : str) :
  replace [a] [b] s = map (fun c => if (a =? c)%N then b else c) s.
Proof.
  unfold replace. induction s as [|c s IH]; [reflexivity|].
  cbn [replace_scan startswith map List.length Nat.sub].
  destruct (a =? c)%N; simpl; now rewrite IH.
Qed.

End SubstringFacts.

(** ** The tag tree *)

Section TreeFacts.

Lemma str_eqb_eq (a b : str) : str_eqb a b = true <-> a = b.
Proof.
  unfold str_eqb. destruct (list_eq_dec N.eq_dec a b); split; congruence.
Qed.

(** Document order, structurally: a node comes first, then what is below
    it, then what follows it. *)
Lemma descendants_cons (e : PageElement) (rest : list PageElement) :
  descendants (document (e :: rest)) =
  e :: descendants e ++ descendants (document rest).
Proof. reflexivity. Qed.

Lemma descendants_tag (n : str) (a : list (str * str)) (cs : list PageElement) :
  descendants (Tag n a cs) = descendants (document cs).
Proof. reflexivity. Qed.

Lemma descendants_app (xs ys : list PageElement) :
  descendants (document (xs ++ ys)) =
  descendants (document xs) ++ descendants (document ys).
Proof. unfold document. simpl. apply flat_map_app. Qed.

(** What [find_all] returns are tags named as asked. *)
Lemma find_all_named (names : list str) (soup e : PageElement) :
  In e (find_all names soup) ->
  exists n a cs, e = Tag n a cs /\ In n names.
Proof.
  unfold find_all. rewrite filter_In. intros [_ H].
  destruct e as [n a cs|]; [|discriminate].
  exists n, a, cs. split; [reflexivity|].
  simpl in H. apply existsb_exists in H as (x & Hx & E).
  apply str_eqb_eq in E. now subst.
Qed.

(** The second character of a heading name is its level. *)
Lemma heading_name_level (n : str) :
  In n heading_names ->
  exists d, getitem n 1 = Ok d /\ int_of_char d = Ok (level_of n) /\
            (1 <= level_of n <= 6)%Z.
Proof.
  intros H. simpl in H.
  repeat (destruct H as [<- | H];
          [eexists; repeat split; try reflexivity; vm_compute; discriminate|]).
  contradiction.
Qed.

Lemma name_matches_heading (n : str) (a : list (str * str))
      (cs : list PageElement) :
  In n heading_names -> name_matches heading_names (Tag n a cs) = true.
Proof.
  intros H. unfold name_matches. apply existsb_exists.
  exists n. split; [exact H | now apply str_eqb_eq].
Qed.

End TreeFacts.

(** ** The extraction loop *)

Section ExtractionFacts.

(** The text kept for a heading is the trimmed text of its tag: once the
    marker is known to be absent, removing it and trimming again change
    nothing. *)
Lemma kept_text (raw : str) :
  contains edit_marker (strip raw) = false ->
  strip (replace edit_marker [] (strip raw)) = strip raw.
Proof.
  intros H. rewrite (replace_absent _ _ _ H). apply strip_idem.
Qed.

(** One round of the loop on a heading tag: it cannot raise, and it
    appends what [heading_of] says. *)
Lemma heading_step_tag (hs : list heading) (n : str) (a : list (str * str))
      (cs : list PageElement) :
  In n heading_names ->
  heading_step hs (Tag n a cs) = Ok (hs ++ heading_of (Tag n a cs)).
Proof.
  intros H. destruct (heading_name_level n H) as (d & Hd & Hl & _).
  unfold heading_step, heading_of, kept.
  rewrite (name_matches_heading n a cs H).
  cbn [tag_name bind]. rewrite Hd. cbn [bind]. rewrite Hl. cbn [bind andb].
  destruct (truthy (strip (get_text (Tag n a cs)))); cbn [andb];
    [|now rewrite app_nil_r].
  destruct (contains edit_marker (strip (get_text (Tag n a cs)))) eqn:E;
    cbn [negb]; [now rewrite app_nil_r|].
  now rewrite (kept_text _ E).
Qed.

Lemma for_each_heading_step (ts : list PageElement) (hs : list heading) :
  (forall t, In t ts -> exists n a cs, t = Tag n a cs /\ In n heading_names) ->
  for_each heading_step ts hs = Ok (hs ++ flat_map heading_of ts).
Proof.
  revert hs. induction ts as [|t ts IH]; intros hs H; simpl.
  - now rewrite app_nil_r.
  - destruct (H t (or_introl eq_refl)) as (n & a & cs & -> & Hn).
    rewrite (heading_step_tag hs n a cs Hn). cbn [bind].
    rewrite IH by (intros t' Ht'; apply H; now right).
    now rewrite <- app_assoc.
Qed.

Lemma heading_of_unmatched (e : PageElement) :
  name_matches heading_names e = false -> heading_of e = [].
Proof.
  destruct e as [n a cs|]; [|reflexivity].
  unfold heading_of. now intros ->.
Qed.

Lemma flat_map_filter_heading (ds : list PageElement) :
  flat_map heading_of (filter (name_matches heading_names) ds) =
  flat_map heading_of ds.
Proof.
  induction ds as [|d ds IH]; [reflexivity|]. simpl.
  destruct (name_matches heading_names d) eqn:E; simpl.
  - now rewrite IH.
  - now rewrite (heading_of_unmatched d E), IH.
Qed.

(** The loop as a whole: it returns, and what it returns is the headings
    of the nodes of the document, node after node in document order. *)
Lemma extract_from_soup_spec (soup : PageElement) :
  extract_from_soup soup = Ok (flat_map heading_of (descendants soup)).
Proof.
  unfold extract_from_soup.
  rewrite for_each_heading_step by apply find_all_named.
  unfold find_all. now rewrite flat_map_filter_heading.
Qed.

Lemma heading_of_ok (e : PageElement) : Forall heading_ok (heading_of e).
Proof.
  destruct e as [n a cs|]; [|constructor].
  unfold heading_of.
  destruct (name_matches heading_names (Tag n a cs)) eqn:Hm; [|constructor].
  unfold kept. simpl andb.
  destruct (truthy (strip (get_text (Tag n a cs)))) eqn:Ht; [|constructor].
  destruct (contains edit_marker (strip (get_text (Tag n a cs)))) eqn:Hc;
    [constructor|].
  constructor; [|constructor].
  assert (Hne : strip (get_text (Tag n a cs)) <> [])
    by (intros E; rewrite E in Ht; discriminate).
  unfold name_matches in Hm. apply existsb_exists in Hm as (x & Hx & E).
  apply str_eqb_eq in E. subst x.
  destruct (heading_name_level n Hx) as (_ & _ & _ & Hlo & Hhi).
  unfold heading_ok. cbn [fst snd]. repeat split; [exact Hlo | exact Hhi | |].
  - now rewrite strip_idem.
  - rewrite (replace_absent _ _ _ Hc). now rewrite strip_idem.
Qed.

Lemma heading_of_unmarked (e : PageElement) :
  Forall (fun h => contains edit_marker (snd h) = false) (heading_of e).
Proof.
  destruct e as [n a cs|]; [|constructor].
  unfold heading_of, kept.
  destruct (name_matches heading_names (Tag n a cs)); [|constructor].
  destruct (truthy (strip (get_text (Tag n a cs)))); [|constructor].
  destruct (contains edit_marker (strip (get_text (Tag n a cs)))) eqn:Hc;
    constructor; [exact Hc | constructor].
Qed.

Lemma Forall_flat_map {A B} (P : B -> Prop) (f : A -> list B) (xs : list A) :
  (forall x, Forall P (f x)) -> Forall P (flat_map f xs).
Proof.
  intros H. induction xs as [|x xs IH]; simpl; [constructor|].
  apply Forall_app. split; [apply H | exact IH].
Qed.

(** A tag that contributes no heading can be replaced by its children. *)
Lemma extract_splice (n : str) (a : list (str * str))
      (cs rest : list PageElement) :
  heading_of (Tag n a cs) = [] ->
  extract_from_soup (document (Tag n a cs :: rest)) =
  extract_from_soup (document (cs ++ rest)).
Proof.
  intros H. rewrite !extract_from_soup_spec. f_equal.
  rewrite descendants_cons, descendants_app, descendants_tag.
  cbn [flat_map]. rewrite H, !flat_map_app. reflexivity.
Qed.

(** A node that contributes no heading can stand anywhere: the output is
    what the nodes before it and the nodes after it contribute. *)
Lemma extract_skips (soup : PageElement) (pre post : list PageElement)
      (t : PageElement) :
  descendants soup = pre ++ t :: post ->
  heading_of t = [] ->
  extract_from_soup soup =
  Ok (flat_map heading_of pre ++ flat_map heading_of post).
Proof.
  intros Hd Ht. rewrite extract_from_soup_spec, Hd, flat_map_app.
  cbn [flat_map]. now rewrite Ht.
Qed.

End ExtractionFacts.

(** ** The renderer *)

Section RenderFacts.

Lemma fold_left_append {A B} (f : A -> B) (xs : list A) (acc : list B) :
  fold_left (fun lines x => lines ++ [f x]) xs acc = acc ++ map f xs.
Proof.
  revert acc. induction xs as [|x xs IH]; intros acc; simpl.
  - now rewrite app_nil_r.
  - rewrite IH, <- app_assoc. reflexivity.
Qed.

Lemma join_cons (sep p : str) (ps : list str) :
  join sep (p :: ps) = p ++ flat_map (fun q => sep ++ q) ps.
Proof.
  revert p. induction ps as [|q ps IH]; intros p.
  - simpl. now rewrite app_nil_r.
  - change (join sep (p :: q :: ps)) with (p ++ sep ++ join sep (q :: ps)).
    rewrite IH. simpl. now rewrite <- app_assoc.
Qed.

(** The outline is the header element, which carries a line feed of its
    own, followed by each heading line behind a double line feed. *)
Lemma outline_shape (country : str) (hs : list heading) :
  generate_markdown_outline country hs =
  lit "## Contents" ++ [LF]
    ++ flat_map (fun h => [LF; LF] ++ heading_line h) hs.
Proof.
  unfold generate_markdown_outline. rewrite fold_left_append.
  change ([] ++ [lit "## Contents" ++ [LF]]) with [lit "## Contents" ++ [LF]].
  change ([?x] ++ ?l) with (x :: l).
  rewrite join_cons.
  rewrite <- (app_assoc (lit "## Contents") [LF]).
  assert (E : flat_map (fun q => [LF; LF] ++ q) (map heading_line hs) =
              flat_map (fun h => [LF; LF] ++ heading_line h) hs).
  { induction hs as [|x hs IH]; [reflexivity|].
    cbn [map flat_map]. now rewrite IH. }
  now rewrite E.
Qed.

End RenderFacts.

(** ** The fetcher and the handler *)

Section HandlerFacts.

Variable L : Libraries.

(** An HTTP status of the error range makes the fetch raise [HTTPError]
    with the response. *)
Lemma fetch_http_failure (country url : str) (r : Response) :
  wikipedia_url country = Ok url ->
  requests_get L url request_headers = Ok r ->
  (400 <= status_code r < 600)%Z ->
  fetch_wikipedia_page L country = Raise (HTTPError r).
Proof.
  intros Hu Hr Hs. unfold fetch_wikipedia_page.
  rewrite Hu. cbn [bind]. rewrite Hr. cbn [bind].
  unfold raise_for_status.
  replace (400 <=? status_code r)%Z with true by (symmetry; apply Z.leb_le; lia).
  replace (status_code r <? 600)%Z with true by (symmetry; apply Z.ltb_lt; lia).
  reflexivity.
Qed.

(** Every clause of the handler returns a body. *)
Lemma outline_handler_returns (country : str) (e : exn) :
  exists msg, outline_handler L country e = Ok (lit "Error" ++ msg).
Proof.
  destruct e as [r| | | | | |]; cbn [outline_handler];
    try (eexists; reflexivity).
  destruct (status_code r =? 404)%Z; eexists; reflexivity.
Qed.

Lemma extract_headings_returns (html : str) (nodes : list PageElement) :
  html_parser L html = Some nodes ->
  extract_headings L html =
  Ok (flat_map heading_of (descendants (document nodes))).
Proof.
  intros H. unfold extract_headings, BeautifulSoup. rewrite H. cbn [bind].
  apply extract_from_soup_spec.
Qed.

Lemma extract_headings_rejected (html : str) :
  html_parser L html = None ->
  extract_headings L html = Raise ParserRejectedMarkup.
Proof.
  intros H. unfold extract_headings, BeautifulSoup. now rewrite H.
Qed.

(** The one way extraction fails: the parser rejected the markup. *)
Lemma extract_headings_raises (html : str) (e : exn) :
  extract_headings L html = Raise e ->
  e = ParserRejectedMarkup /\ html_parser L html = None.
Proof.
  destruct (html_parser L html) as [nodes|] eqn:H.
  - rewrite (extract_headings_returns html nodes H). discriminate.
  - rewrite (extract_headings_rejected html H). intros [= <-]. now split.
Qed.

(** When the fetch raises, the handler's clause decides the body. *)
Lemma outline_on_failure (country : str) (e : exn) :
  fetch_wikipedia_page L country = Raise e ->
  get_country_outline L country = outline_handler L country e.
Proof. intros H. unfold get_country_outline. now rewrite H. Qed.

(** When the fetch returns and the page is parsed, the body is the outline
    of the page. *)
Lemma outline_on_success (country html : str) (nodes : list PageElement) :
  fetch_wikipedia_page L country = Ok html ->
  html_parser L html = Some nodes ->
  get_country_outline L country =
  Ok (generate_markdown_outline country
        (flat_map heading_of (descendants (document nodes)))).
Proof.
  intros H Hp. unfold get_country_outline.
  rewrite H. cbn [bind]. now rewrite (extract_headings_returns html nodes Hp).
Qed.

(** When the fetch returns and extraction raises, the handler's clause
    decides the body. *)
Lemma outline_on_later_failure (country html : str) (e : exn) :
  fetch_wikipedia_page L country = Ok html ->
  extract_headings L html = Raise e ->
  get_country_outline L country = outline_handler L country e.
Proof.
  intros H He. unfold get_country_outline.
  rewrite H. cbn [bind]. now rewrite He.
Qed.

End HandlerFacts.

Section UrlFacts.

Lemma wikipedia_url_trim (ws1 country ws2 : str) :
  all_space ws1 = true -> all_space ws2 = true ->
  wikipedia_url (ws1 ++ country ++ ws2) = wikipedia_url country.
Proof.
  intros H1 H2. unfold wikipedia_url.
  now rewrite (strip_surrounded ws1 country ws2 H1 H2).
Qed.

Lemma fetch_requests_url (L : Libraries) (country url : str) :
  wikipedia_url country = Ok url ->
  fetch_wikipedia_page L country =
  (response <- requests_get L url request_headers ;;
   _ <- raise_for_status response ;;
   Ok (text response)).
Proof. intros H. unfold fetch_wikipedia_page. now rewrite H. Qed.

End UrlFacts.

Section DroppedTags.

Lemma heading_of_blank (n : str) (a : list (str * str)) (cs : list PageElement) :
  all_space (get_text (Tag n a cs)) = true -> heading_of (Tag n a cs) = [].
Proof.
  intros H. unfold heading_of, kept.
  rewrite (strip_all_space _ H). cbn [truthy andb].
  now rewrite andb_false_r.
Qed.

Lemma heading_of_marked (n : str) (a : list (str * str)) (cs : list PageElement) :
  contains edit_marker (get_text (Tag n a cs)) = true ->
  heading_of (Tag n a cs) = [].
Proof.
  intros H. unfold heading_of, kept.
  rewrite (contains_marker_strip _ H). cbn [negb].
  now rewrite !andb_false_r.
Qed.

End DroppedTags.

(** * The claims *)

(** ** Extraction *)

(** C1: the heading whose text is [History[edit]] is not turned into
    [(level, "History")]: the test of line 46 drops every heading that
    contains the marker, so the removal of line 48 never sees one.  Both
    the plain tag and Wikipedia's markup yield no heading, where trimming
    and removing the marker would have left [History]. *)
Theorem history_edit_heading_dropped :
  extract_from_soup (document [heading_tag "h2" "History[edit]"]) = Ok [] /\
  extract_from_soup (document [history_edit]) = Ok [] /\
  extract_headings
    (mkLibraries (fun _ => Some [heading_tag "h2" "History[edit]"])
                 (fun _ _ => Raise IndexError) (fun _ => []))
    (lit "<h2>History[edit]</h2>") = Ok [] /\
  cleaned (lit "History[edit]") = lit "History" /\
  extract_from_soup (document [heading_tag "h2" "[edit]"]) = Ok [].
Proof. repeat split; vm_compute; reflexivity. Qed.




(** C5: the headings come out in document order.  The extraction of a
    document is the heading of its first node (if it has one), then the
    headings below that node, then those of the nodes that follow; nothing
    is merged or reordered.  The document with h2 Intro, h3 History and
    h2 Geography gives exactly these three, a repeated heading is
    repeated, and a deeper level before a higher one stays first. *)
Theorem extract_headings_document_order :
  (forall (L : Libraries) (html : str) (nodes : list PageElement),
      html_parser L html = Some nodes ->
      extract_headings L html =
      Ok (flat_map heading_of (descendants (document nodes)))) /\
  (forall (e : PageElement) (rest : list PageElement),
      extract_from_soup (document (e :: rest)) =
      (first <- extract_from_soup (document [e]) ;;
       others <- extract_from_soup (document rest) ;;
       Ok (first ++ others))) /\
  (forall (n : str) (a : list (str * str)) (cs : list PageElement),
      extract_from_soup (document [Tag n a cs]) =
      (below <- extract_from_soup (document cs) ;;
       Ok (heading_of (Tag n a cs) ++ below))) /\
  extract_from_soup sample_soup =
    Ok [(2%Z, lit "Intro"); (3%Z, lit "History"); (2%Z, lit "Geography")] /\
  extract_headings serving_sample (lit "<html>") =
    Ok [(2%Z, lit "Intro"); (3%Z, lit "History"); (2%Z, lit "Geography")] /\
  extract_from_soup
    (document [heading_tag "h2" "Intro"; heading_tag "h2" "Intro"]) =
    Ok [(2%Z, lit "Intro"); (2%Z, lit "Intro")] /\
  extract_from_soup
    (document [heading_tag "h3" "B"; heading_tag "h1" "A"]) =
    Ok [(3%Z, lit "B"); (1%Z, lit "A")].
Proof.
  split; [exact extract_headings_returns|].
  split.
  { intros e rest. rewrite !extract_from_soup_spec. cbn [bind]. f_equal.
    change (e :: rest) with ([e] ++ rest).
    now rewrite descendants_app, flat_map_app. }
  split.
  { intros n a cs. rewrite !extract_from_soup_spec. cbn [bind]. f_equal.
    rewrite descendants_cons, descendants_tag. cbn [flat_map].
    change (descendants (document [])) with (@nil PageElement).
    now rewrite app_nil_r. }
  repeat split.
Qed.

(** The sample page, as the parser hands it over. *)
Lemma sample_page_in_order :
  extract_headings serving_sample (lit "<html>") =
  Ok [(2%Z, lit "Intro"); (3%Z, lit "History"); (2%Z, lit "Geography")].
Proof.
  rewrite (proj1 extract_headings_document_order serving_sample
             (lit "<html>") _ eq_refl).
  reflexivity.
Defined.

(** C6: every heading extracted has a level from 1 to 6 and a text that is
    non-empty after trimming and after removing the marker; and a heading
    tag whose text is white space only adds nothing, wherever it stands in
    the document: the output is what the nodes before it and the nodes
    after it contribute, and at the head of a document the tag can be
    replaced by its children. *)
Theorem extracted_headings_satisfy_invariant :
  (forall (L : Libraries) (html : str) (nodes : list PageElement),
      html_parser L html = Some nodes ->
      exists hs, extract_headings L html = Ok hs /\ Forall heading_ok hs) /\
  (forall soup : PageElement,
      exists hs, extract_from_soup soup = Ok hs /\ Forall heading_ok hs) /\
  (forall (soup : PageElement) (pre post : list PageElement)
          (n : str) (a : list (str * str)) (cs : list PageElement),
      descendants soup = pre ++ Tag n a cs :: post ->
      all_space (get_text (Tag n a cs)) = true ->
      extract_from_soup soup =
      Ok (flat_map heading_of pre ++ flat_map heading_of post)) /\
  (forall (n : str) (a : list (str * str)) (cs rest : list PageElement),
      all_space (get_text (Tag n a cs)) = true ->
      extract_from_soup (document (Tag n a cs :: rest)) =
      extract_from_soup (document (cs ++ rest))).
Proof.
  split.
  { intros L html nodes H. eexists.
    split; [apply (extract_headings_returns L html nodes H)|].
    apply Forall_flat_map, heading_of_ok. }
  split.
  { intros soup. eexists. split; [apply extract_from_soup_spec|].
    apply Forall_flat_map, heading_of_ok. }
  split.
  { intros soup pre post n a cs Hd H.
    apply (extract_skips soup pre post _ Hd), heading_of_blank, H. }
  intros n a cs rest H. apply extract_splice, heading_of_blank, H.
Qed.

(** The blank h2 tag of [mixed_soup], inside the [div] and behind the h1
    heading: it is the fourth node in document order. *)
Lemma blank_heading_dropped :
  all_space (get_text (Tag (lit "h2") [] [Text NavigableString (lit "   ")]))
    = true /\
  extract_from_soup mixed_soup =
  Ok [(1%Z, lit "Vanuatu"); (2%Z, lit "Geography")].
Proof.
  split; [reflexivity|].
  rewrite (proj1 (proj2 (proj2 extracted_headings_satisfy_invariant))
             mixed_soup
             (firstn 3 (descendants mixed_soup))
             (skipn 4 (descendants mixed_soup))
             (lit "h2") [] [Text NavigableString (lit "   ")]
             eq_refl eq_refl).
  reflexivity.
Defined.

(** C10: no heading of the output contains the marker, and a heading tag
    whose text contains the marker anywhere adds nothing to the output,
    wherever it stands in the document: the output is what the nodes before
    it and the nodes after it contribute, and at the head of a document
    the tag can be replaced by its children. *)
Theorem no_edit_marker_in_headings :
  (forall (L : Libraries) (html : str) (nodes : list PageElement),
      html_parser L html = Some nodes ->
      exists hs, extract_headings L html = Ok hs /\
                 Forall (fun h => contains edit_marker (snd h) = false) hs) /\
  (forall soup : PageElement,
      exists hs, extract_from_soup soup = Ok hs /\
                 Forall (fun h => contains edit_marker (snd h) = false) hs) /\
  (forall (soup : PageElement) (pre post : list PageElement)
          (n : str) (a : list (str * str)) (cs : list PageElement),
      descendants soup = pre ++ Tag n a cs :: post ->
      contains edit_marker (get_text (Tag n a cs)) = true ->
      extract_from_soup soup =
      Ok (flat_map heading_of pre ++ flat_map heading_of post)) /\
  (forall (n : str) (a : list (str * str)) (cs rest : list PageElement),
      contains edit_marker (get_text (Tag n a cs)) = true ->
      extract_from_soup (document (Tag n a cs :: rest)) =
      extract_from_soup (document (cs ++ rest))).
Proof.
  split.
  { intros L html nodes H. eexists.
    split; [apply (extract_headings_returns L html nodes H)|].
    apply Forall_flat_map, heading_of_unmarked. }
  split.
  { intros soup. eexists. split; [apply extract_from_soup_spec|].
    apply Forall_flat_map, heading_of_unmarked. }
  split.
  { intros soup pre post n a cs Hd H.
    apply (extract_skips soup pre post _ Hd), heading_of_marked, H. }
  intros n a cs rest H. apply extract_splice, heading_of_marked, H.
Qed.

(** The h2 tag [History[edit]] of [mixed_soup], inside the [div] and
    behind two other heading tags: it is the sixth node in document
    order.  Its title is not kept as [History]. *)
Lemma marked_heading_excluded :
  contains edit_marker (get_text (heading_tag "h2" "History[edit]")) = true /\
  extract_from_soup mixed_soup =
  Ok [(1%Z, lit "Vanuatu"); (2%Z, lit "Geography")].
Proof.
  split; [reflexivity|].
  rewrite (proj1 (proj2 (proj2 no_edit_marker_in_headings))
             mixed_soup
             (firstn 5 (descendants mixed_soup))
             (skipn 6 (descendants mixed_soup))
             (lit "h2") [] [Text NavigableString (lit "History[edit]")]
             eq_refl eq_refl).
  reflexivity.
Defined.

(** ** Rendering *)

(** C2, as the specification states it, fails: the header element is
    ["## Contents\n"], so the empty outline is not ["## Contents"] and the
    first heading does not follow the header after a single blank line. *)
Lemma outline_header_keeps_line_feed :
  generate_markdown_outline [] [] <> lit "## Contents" /\
  generate_markdown_outline [] [(2%Z, lit "Intro")] <>
    lit "## Contents" ++ [LF; LF] ++ lit "## Intro" /\
  generate_markdown_outline [] [(1%Z, lit "A"); (3%Z, lit "B")] <>
    lit "## Contents" ++ [LF; LF] ++ lit "# A" ++ [LF; LF] ++ lit "### B".
Proof. repeat split; vm_compute; discriminate. Qed.

(** C2, amended: the renderer joins the header element ["## Contents\n"],
    which ends in a line feed of its own, and the heading lines with a
    double line feed.  The header is therefore followed by three line
    feeds before the first heading, consecutive heading lines are one
    blank line apart, and the empty outline is ["## Contents\n"].  A
    heading line is level-many [#], a space and the text. *)
Theorem outline_layout :
  (forall (country : str) (hs : list heading),
      generate_markdown_outline country hs =
      join [LF; LF] ((lit "## Contents" ++ [LF]) :: map heading_line hs)) /\
  (forall (country : str) (hs : list heading),
      generate_markdown_outline country hs =
      lit "## Contents" ++ [LF]
        ++ flat_map (fun h => [LF; LF] ++ heading_line h) hs) /\
  (forall (level : Z) (text : str),
      heading_line (level, text) =
      repeat 35%N (Z.to_nat level) ++ lit " " ++ text) /\
  generate_markdown_outline [] [] = lit "## Contents" ++ [LF] /\
  generate_markdown_outline [] [(2%Z, lit "Intro")] =
    lit "## Contents" ++ [LF; LF; LF] ++ lit "## Intro" /\
  generate_markdown_outline [] [(1%Z, lit "A"); (3%Z, lit "B")] =
    lit "## Contents" ++ [LF; LF; LF] ++ lit "# A" ++ [LF; LF] ++ lit "### B".
Proof.
  split.
  { intros country hs. unfold generate_markdown_outline.
    now rewrite fold_left_append. }
  split; [exact outline_shape|].
  repeat split.
Qed.

(** C9: the outline does not depend on the country argument. *)
Theorem outline_ignores_country :
  forall (c1 c2 : str) (hs : list heading),
    generate_markdown_outline c1 hs = generate_markdown_outline c2 hs.
Proof.
  intros c1 c2 hs. now rewrite (outline_shape c1), (outline_shape c2).
Qed.

(** ** The request URL *)

(** C7: the URL requested is the Wikipedia prefix followed by the quoted
    form of the country name, trimmed and with each space turned into an
    underscore.  White space around the name does not change the URL;
    ["United States"] gives the path segment [United_States], with or
    without spaces around it; a character outside the unreserved set is
    percent-encoded from its UTF-8 bytes; and the request goes to this
    URL. *)
Theorem wikipedia_url_normalises :
  (forall country : str,
      wikipedia_url country =
      (quoted <- quote (map (fun c => if (32 =? c)%N then 95%N else c)
                            (strip country)) ;;
       Ok (lit "https://en.wikipedia.org/wiki/" ++ quoted))) /\
  (forall ws1 country ws2 : str,
      all_space ws1 = true -> all_space ws2 = true ->
      wikipedia_url (ws1 ++ country ++ ws2) = wikipedia_url country) /\
  wikipedia_url (lit "United States") =
    Ok (lit "https://en.wikipedia.org/wiki/United_States") /\
  wikipedia_url (lit "  United States ") =
    Ok (lit "https://en.wikipedia.org/wiki/United_States") /\
  wikipedia_url ([67%N; 244%N] ++ lit "te d'Ivoire") =
    Ok (lit "https://en.wikipedia.org/wiki/C%C3%B4te_d%27Ivoire") /\
  (forall (L : Libraries) (country url : str),
      wikipedia_url country = Ok url ->
      fetch_wikipedia_page L country =
      (response <- requests_get L url request_headers ;;
       _ <- raise_for_status response ;;
       Ok (text response))).
Proof.
  split.
  { intros country. unfold wikipedia_url.
    change (lit " ") with [32%N]. change (lit "_") with [95%N].
    now rewrite replace_char. }
  split; [exact wikipedia_url_trim|].
  repeat split. exact fetch_requests_url.
Qed.

(** Two spaces before the name, a tab and a line feed after it. *)
Lemma united_states_url_trimmed :
  all_space (lit "  ") = true /\ all_space [9%N; 10%N] = true /\
  wikipedia_url (lit "  " ++ lit "United States" ++ [9%N; 10%N]) =
  Ok (lit "https://en.wikipedia.org/wiki/United_States").
Proof.
  split; [reflexivity|]. split; [reflexivity|].
  rewrite (proj1 (proj2 wikipedia_url_normalises)
             (lit "  ") (lit "United States") [9%N; 10%N] eq_refl eq_refl).
  reflexivity.
Defined.

(** ** The request handler *)

(** C3: when the fetch fails with an [HTTPError] of status 404, the body
    is [Error: Wikipedia page not found for '<country>'] with the country
    as the caller gave it. *)
Theorem page_not_found_message :
  forall (L : Libraries) (country : str) (r : Response),
    fetch_wikipedia_page L country = Raise (HTTPError r) ->
    status_code r = 404%Z ->
    get_country_outline L country =
    Ok (lit "Error: Wikipedia page not found for '" ++ country ++ lit "'").
Proof.
  intros L country r Hf Hs.
  rewrite (outline_on_failure L country _ Hf).
  cbn [outline_handler]. now rewrite Hs.
Qed.

(** The upstream answers 404 to the request for Atlantis. *)
Lemma page_not_found_atlantis :
  fetch_wikipedia_page (answering 404) (lit "Atlantis") =
    Raise (HTTPError (mkResponse 404 [])) /\
  get_country_outline (answering 404) (lit "Atlantis") =
    Ok (lit "Error: Wikipedia page not found for 'Atlantis'").
Proof.
  split; [reflexivity|].
  exact (page_not_found_message (answering 404) (lit "Atlantis")
           (mkResponse 404 []) eq_refl eq_refl).
Defined.

(** The name is not normalised in the message: the spaces around it and
    inside it stay, while the URL requested has them trimmed and
    replaced. *)
Example page_not_found_verbatim :
  get_country_outline (answering 404) (lit " New Zealand ") =
    Ok (lit "Error: Wikipedia page not found for ' New Zealand '") /\
  wikipedia_url (lit " New Zealand ") =
    Ok (lit "https://en.wikipedia.org/wiki/New_Zealand").
Proof. split; reflexivity. Qed.

(** C8: the handler always returns a body.  Whatever the libraries do, the
    call ends in a value and never in an exception; when the fetch raises,
    the body is an error text; an [HTTPError] whose status is not 404
    gives a body that starts with [Error fetching Wikipedia page: ]; and a
    failure of the stage after the fetch, the extraction raising on a page
    that was fetched, is caught as well and gives [Error: <message>]. *)
Theorem handler_absorbs_failures :
  (forall (L : Libraries) (country : str),
      exists body, get_country_outline L country = Ok body) /\
  (forall (L : Libraries) (country : str) (e : exn),
      fetch_wikipedia_page L country = Raise e ->
      exists msg, get_country_outline L country = Ok (lit "Error" ++ msg)) /\
  (forall (L : Libraries) (country : str) (r : Response),
      fetch_wikipedia_page L country = Raise (HTTPError r) ->
      status_code r <> 404%Z ->
      get_country_outline L country =
      Ok (lit "Error fetching Wikipedia page: " ++ exn_str L (HTTPError r))) /\
  (forall (L : Libraries) (country html : str) (e : exn),
      fetch_wikipedia_page L country = Ok html ->
      extract_headings L html = Raise e ->
      get_country_outline L country = Ok (lit "Error: " ++ exn_str L e)).
Proof.
  split; [|split; [|split]].
  - intros L country.
    destruct (fetch_wikipedia_page L country) as [html|e] eqn:Hf.
    + destruct (extract_headings L html) as [hs|e] eqn:He.
      * eexists. unfold get_country_outline.
        rewrite Hf. cbn [bind]. rewrite He. reflexivity.
      * rewrite (outline_on_later_failure L country html e Hf He).
        destruct (outline_handler_returns L country e) as [msg ->].
        eexists. reflexivity.
    + rewrite (outline_on_failure L country e Hf).
      destruct (outline_handler_returns L country e) as [msg ->].
      eexists. reflexivity.
  - intros L country e Hf. rewrite (outline_on_failure L country e Hf).
    apply outline_handler_returns.
  - intros L country r Hf Hs. rewrite (outline_on_failure L country _ Hf).
    cbn [outline_handler].
    destruct (Z.eqb_spec (status_code r) 404); [contradiction | reflexivity].
  - intros L country html e Hf He.
    rewrite (outline_on_later_failure L country html e Hf He).
    destruct (extract_headings_raises L html e He) as [-> _]. reflexivity.
Qed.

(** The upstream answers 500; the message of the exception is [boom].
    And the upstream answers 200 with a page the parser rejects. *)
Lemma server_error_body :
  fetch_wikipedia_page (answering 500) (lit "Atlantis") =
    Raise (HTTPError (mkResponse 500 [])) /\
  get_country_outline (answering 500) (lit "Atlantis") =
    Ok (lit "Error fetching Wikipedia page: boom") /\
  fetch_wikipedia_page serving_bad_markup (lit "Atlantis") = Ok bad_markup /\
  extract_headings serving_bad_markup bad_markup =
    Raise ParserRejectedMarkup /\
  get_country_outline serving_bad_markup (lit "Atlantis") =
    Ok (lit "Error: boom").
Proof.
  split; [reflexivity|]. split.
  { refine (proj1 (proj2 (proj2 handler_absorbs_failures)) (answering 500)
              (lit "Atlantis") (mkResponse 500 []) eq_refl _).
    cbn. discriminate. }
  split; [reflexivity|]. split; [reflexivity|].
  exact (proj2 (proj2 (proj2 handler_absorbs_failures)) serving_bad_markup
           (lit "Atlantis") bad_markup ParserRejectedMarkup eq_refl eq_refl).
Defined.

(** * Further properties of the program *)

(** ** Quoting *)

Section QuoteFacts.

Ltac divmod := zify; Z.to_euclidean_division_equations; lia.

Ltac bool_to_prop H :=
  repeat first
    [ rewrite orb_true_iff in H | rewrite andb_true_iff in H
    | rewrite N.leb_le in H | rewrite N.ltb_lt in H | rewrite N.eqb_eq in H ].

Lemma utf8_encode_char_range (c : N) :
  match utf8_encode_char c with
  | Some bs => Forall (fun b => (b < 256)%N) bs
  | None => True
  end.
Proof.
  unfold utf8_encode_char.
  destruct (N.ltb_spec c 128);
    [repeat (apply Forall_cons; [divmod|]); apply Forall_nil|].
  destruct (N.ltb_spec c 2048);
    [repeat (apply Forall_cons; [divmod|]); apply Forall_nil|].
  destruct ((55296 <=? c)%N && (c <=? 57343)%N); [exact I|].
  destruct (N.ltb_spec c 65536);
    [repeat (apply Forall_cons; [divmod|]); apply Forall_nil|].
  destruct (N.leb_spec c 1114111); [|exact I].
  repeat (apply Forall_cons; [divmod|]); apply Forall_nil.
Qed.

Lemma utf8_encode_char_bytes (c : N) (bs : list N) :
  utf8_encode_char c = Some bs -> Forall (fun b => (b < 256)%N) bs.
Proof.
  intros H. pose proof (utf8_encode_char_range c) as R.
  now rewrite H in R.
Qed.

Lemma utf8_encode_from_bytes (s : str) (pos : nat) (bs : list N) :
  utf8_encode_from pos s = Ok bs -> Forall (fun b => (b < 256)%N) bs.
Proof.
  revert pos bs. induction s as [|c s IH]; intros pos bs; simpl.
  - intros [= <-]. constructor.
  - destruct (utf8_encode_char c) as [cs|] eqn:Hc; [|discriminate].
    destruct (utf8_encode_from (S pos) s) as [rest|e] eqn:Hr; [|discriminate].
    cbn [bind]. intros [= <-]. apply Forall_app. split.
    + apply (utf8_encode_char_bytes c cs Hc).
    + apply (IH (S pos) rest Hr).
Qed.

(** The only exception the encoder raises. *)
Lemma utf8_encode_from_raises (s : str) (pos : nat) (e : exn) :
  utf8_encode_from pos s = Raise e -> exists p, e = UnicodeEncodeError p.
Proof.
  revert pos. induction s as [|c s IH]; intros pos; simpl; [discriminate|].
  destruct (utf8_encode_char c) as [cs|]; [|intros [= <-]; now eexists].
  destruct (utf8_encode_from (S pos) s) as [rest|e'] eqn:Hr; [discriminate|].
  cbn [bind]. intros [= <-]. apply (IH (S pos) Hr).
Qed.

Lemma hex_digit_safe (n : N) : (n < 16)%N -> is_safe (hex_digit n) = true.
Proof.
  intros H. unfold hex_digit, is_safe.
  destruct (N.ltb_spec n 10).
  - replace (48 <=? 48 + n)%N with true by (symmetry; apply N.leb_le; lia).
    replace (48 + n <=? 57)%N with true by (symmetry; apply N.leb_le; lia).
    cbn [andb]. now rewrite !orb_true_r.
  - replace (65 <=? 55 + n)%N with true by (symmetry; apply N.leb_le; lia).
    replace (55 + n <=? 90)%N with true by (symmetry; apply N.leb_le; lia).
    reflexivity.
Qed.

Lemma quote_byte_chars (b : N) :
  (b < 256)%N -> Forall (fun c => url_char c = true) (quote_byte b).
Proof.
  intros H. unfold quote_byte, url_char.
  destruct (is_safe b) eqn:Hb.
  - constructor; [now rewrite Hb | constructor].
  - constructor; [now rewrite orb_true_r|].
    constructor; [rewrite hex_digit_safe; [reflexivity | divmod]|].
    constructor; [rewrite hex_digit_safe; [reflexivity | divmod]|].
    constructor.
Qed.

Lemma quote_chars (s q : str) :
  quote s = Ok q -> Forall (fun c => url_char c = true) q.
Proof.
  unfold quote. destruct s as [|c s]; [intros [= <-]; constructor|].
  unfold utf8_encode.
  destruct (utf8_encode_from 0 (c :: s)) as [bs|e] eqn:Hb; [|discriminate].
  cbn [bind]. intros [= <-].
  pose proof (utf8_encode_from_bytes _ _ _ Hb) as Hall.
  unfold quote_from_bytes. clear Hb.
  induction Hall as [|b bs Hlt _ IH]; [constructor|].
  cbn [flat_map]. apply Forall_app. split; [now apply quote_byte_chars | exact IH].
Qed.

Lemma quote_raises (s : str) (e : exn) :
  quote s = Raise e -> exists p, e = UnicodeEncodeError p.
Proof.
  unfold quote. destruct s as [|c s]; [discriminate|].
  unfold utf8_encode.
  destruct (utf8_encode_from 0 (c :: s)) as [bs|e'] eqn:Hb; [discriminate|].
  cbn [bind]. intros [= <-]. apply (utf8_encode_from_raises _ _ _ Hb).
Qed.

Lemma is_safe_facts (c : N) :
  is_safe c = true ->
  (c < 128)%N /\ isspace c = false /\ (32 =? c)%N = false.
Proof.
  intros H. unfold is_safe in H. bool_to_prop H.
  split; [lia|]. split.
  - apply not_true_is_false. intros H'. unfold isspace in H'.
    bool_to_prop H'. lia.
  - apply N.eqb_neq. lia.
Qed.

(** On safe characters the encoder and the quoting change nothing. *)
Lemma utf8_encode_from_safe (s : str) (pos : nat) :
  forallb is_safe s = true ->
  utf8_encode_from pos s = Ok s /\ quote_from_bytes s = s.
Proof.
  revert pos. induction s as [|c s IH]; intros pos H; [now split|].
  cbn [forallb] in H. apply andb_prop in H as [Hc Hs].
  destruct (is_safe_facts c Hc) as (Hlt & _ & _).
  destruct (IH (S pos) Hs) as [E1 E2].
  cbn [utf8_encode_from]. unfold utf8_encode_char.
  replace (c <? 128)%N with true by (symmetry; apply N.ltb_lt; lia).
  rewrite E1. cbn [bind app]. split; [reflexivity|].
  unfold quote_from_bytes in *. cbn [flat_map]. unfold quote_byte at 1.
  now rewrite Hc, E2.
Qed.

Lemma quote_safe (s : str) : forallb is_safe s = true -> quote s = Ok s.
Proof.
  intros H. unfold quote, utf8_encode. destruct s as [|c s]; [reflexivity|].
  destruct (utf8_encode_from_safe (c :: s) 0 H) as [-> E].
  cbn [bind]. now rewrite E.
Qed.

Lemma lstrip_clean (s : str) :
  forallb (fun c => negb (isspace c)) s = true -> lstrip s = s.
Proof.
  destruct s as [|c s]; [reflexivity|]. cbn [forallb lstrip].
  intros H. apply andb_prop in H as [Hc _].
  now destruct (isspace c).
Qed.

Lemma strip_clean (s : str) :
  forallb (fun c => negb (isspace c)) s = true -> strip s = s.
Proof.
  intros H. unfold strip, rstrip. rewrite (lstrip_clean s H).
  rewrite lstrip_clean; [apply rev_involutive|].
  apply forallb_forall. intros x Hx. apply in_rev in Hx.
  now apply (proj1 (forallb_forall _ s) H).
Qed.

End QuoteFacts.

(** ** The request URL, continued *)

(** X1: the path of the URL requested is made of letters, digits, the
    characters [_ . - ~ /] and percent signs only; no space and no
    character outside ASCII reaches the HTTP client. *)
Theorem quoted_path_is_url_safe :
  forall country url : str,
    wikipedia_url country = Ok url ->
    exists path, url = wiki_prefix ++ path /\
                 Forall (fun c => url_char c = true /\ (c < 128)%N) path.
Proof.
  intros country url. unfold wikipedia_url.
  destruct (quote (replace (lit " ") (lit "_") (strip country)))
    as [q|e] eqn:Hq; [|discriminate].
  cbn [bind]. intros [= <-]. exists q. split; [reflexivity|].
  apply quote_chars in Hq. revert Hq. apply Forall_impl.
  intros c Hc. split; [exact Hc|].
  unfold url_char in Hc. apply orb_prop in Hc as [Hs | Hp].
  - now destruct (is_safe_facts c Hs).
  - apply N.eqb_eq in Hp. subst c. reflexivity.
Qed.

(** The name [ Côte d'Ivoire] with a space in front. *)
Lemma quoted_path_of_cote_d_ivoire :
  wikipedia_url ([32%N; 67%N; 244%N] ++ lit "te d'Ivoire") =
    Ok (wiki_prefix ++ lit "C%C3%B4te_d%27Ivoire") /\
  exists path,
    wiki_prefix ++ lit "C%C3%B4te_d%27Ivoire" = wiki_prefix ++ path /\
    Forall (fun c => url_char c = true /\ (c < 128)%N) path.
Proof.
  split; [reflexivity|].
  exact (quoted_path_is_url_safe ([32%N; 67%N; 244%N] ++ lit "te d'Ivoire")
           (wiki_prefix ++ lit "C%C3%B4te_d%27Ivoire") eq_refl).
Defined.

(** X2: a country name that is empty or white space only is not rejected:
    the URL requested is the bare prefix [https://en.wikipedia.org/wiki/]. *)
Theorem blank_country_requests_prefix :
  forall country : str,
    all_space country = true -> wikipedia_url country = Ok wiki_prefix.
Proof.
  intros country H. unfold wikipedia_url.
  rewrite (strip_all_space country H). reflexivity.
Qed.

(** Two spaces and a tab. *)
Lemma blank_country_url :
  all_space [32%N; 32%N; 9%N] = true /\
  wikipedia_url [32%N; 32%N; 9%N] = Ok (lit "https://en.wikipedia.org/wiki/").
Proof.
  split; [reflexivity|].
  exact (blank_country_requests_prefix [32%N; 32%N; 9%N] eq_refl).
Defined.

(** X3: a country name made only of letters, digits and the characters
    [_ . - ~ /] is put into the URL unchanged; in particular a slash in the
    name is not escaped. *)
Theorem safe_country_unchanged :
  forall country : str,
    forallb is_safe country = true ->
    wikipedia_url country = Ok (wiki_prefix ++ country).
Proof.
  intros country H. unfold wikipedia_url.
  assert (Hs : forallb (fun c => negb (isspace c)) country = true).
  { apply forallb_forall. intros c Hc.
    apply (proj1 (forallb_forall _ _) H) in Hc.
    destruct (is_safe_facts c Hc) as (_ & -> & _). reflexivity. }
  rewrite (strip_clean country Hs).
  change (lit " ") with [32%N]. change (lit "_") with [95%N].
  rewrite replace_char.
  assert (Hm : map (fun c => if (32 =? c)%N then 95%N else c) country = country).
  { rewrite <- (map_id country) at 2. apply map_ext_in. intros c Hc.
    apply (proj1 (forallb_forall _ _) H) in Hc.
    destruct (is_safe_facts c Hc) as (_ & _ & ->). reflexivity. }
  rewrite Hm, (quote_safe country H). reflexivity.
Qed.

(** A name with a slash. *)
Lemma safe_country_with_slash :
  forallb is_safe (lit "Georgia/Archive_1") = true /\
  wikipedia_url (lit "Georgia/Archive_1") =
    Ok (lit "https://en.wikipedia.org/wiki/Georgia/Archive_1").
Proof.
  split; [reflexivity|].
  exact (safe_country_unchanged (lit "Georgia/Archive_1") eq_refl).
Defined.

(** ** The handler, continued *)

Section HandlerPaths.

Variable L : Libraries.

Lemma fetch_url_failure (country : str) (e : exn) :
  wikipedia_url country = Raise e ->
  fetch_wikipedia_page L country = Raise e.
Proof. intros H. unfold fetch_wikipedia_page. now rewrite H. Qed.

Lemma fetch_client_failure (country url : str) (e : exn) :
  wikipedia_url country = Ok url ->
  requests_get L url request_headers = Raise e ->
  fetch_wikipedia_page L country = Raise e.
Proof.
  intros Hu Hr. rewrite (fetch_requests_url L country url Hu).
  now rewrite Hr.
Qed.

Lemma fetch_passes_body (country url : str) (r : Response) :
  wikipedia_url country = Ok url ->
  requests_get L url request_headers = Ok r ->
  (status_code r < 400 \/ 600 <= status_code r)%Z ->
  fetch_wikipedia_page L country = Ok (text r).
Proof.
  intros Hu Hr Hs. rewrite (fetch_requests_url L country url Hu).
  rewrite Hr. cbn [bind]. unfold raise_for_status.
  destruct (Z.leb_spec 400 (status_code r));
    destruct (Z.ltb_spec (status_code r) 600); try reflexivity; lia.
Qed.


Lemma handler_other_exception (country : str) (e : exn) :
  (forall r, e <> HTTPError r) ->
  outline_handler L country e = Ok (lit "Error: " ++ exn_str L e).
Proof.
  intros H. destruct e as [r| | | | | |]; try reflexivity.
  now destruct (H r).
Qed.

Lemma startswith_app (p s : str) : startswith p (p ++ s) = true.
Proof. apply startswith_prefix. now exists s. Qed.

End HandlerPaths.

(** X4: a failure of the HTTP client that is not an [HTTPError]
    (connection refused, timeout, ...) is answered with the body
    [Error: <message>], not with the [Error fetching Wikipedia page: ]
    form. *)
Theorem client_failure_body :
  forall (L : Libraries) (country url : str) (e : exn),
    wikipedia_url country = Ok url ->
    requests_get L url request_headers = Raise e ->
    (forall r, e <> HTTPError r) ->
    get_country_outline L country = Ok (lit "Error: " ++ exn_str L e).
Proof.
  intros L country url e Hu Hr He.
  rewrite (outline_on_failure L country e
             (fetch_client_failure L country url e Hu Hr)).
  now apply handler_other_exception.
Qed.

(** A client that times out on every request. *)
Lemma timeout_body :
  get_country_outline
    (mkLibraries (fun _ => Some [])
                 (fun _ _ => Raise (RequestException (lit "timed out")))
                 (fun e => match e with
                           | RequestException d => d
                           | _ => []
                           end))
    (lit "Vanuatu") = Ok (lit "Error: timed out").
Proof.
  refine (client_failure_body
            (mkLibraries (fun _ => Some [])
                         (fun _ _ => Raise (RequestException (lit "timed out")))
                         (fun e => match e with
                                   | RequestException d => d
                                   | _ => []
                                   end))
            (lit "Vanuatu") (lit "https://en.wikipedia.org/wiki/Vanuatu")
            (RequestException (lit "timed out")) eq_refl eq_refl _).
  intros r. discriminate.
Defined.

(** X5: when the country name cannot be encoded (it holds a surrogate),
    building the URL raises [UnicodeEncodeError]; the handler then answers
    [Error: <message>] whatever the HTTP client would do, so no request
    decides the body. *)
Theorem unencodable_country_body :
  forall (country : str) (e : exn),
    wikipedia_url country = Raise e ->
    (exists position, e = UnicodeEncodeError position) /\
    forall L : Libraries,
      get_country_outline L country = Ok (lit "Error: " ++ exn_str L e).
Proof.
  intros country e H. assert (He : exists p, e = UnicodeEncodeError p).
  { unfold wikipedia_url in H.
    destruct (quote (replace (lit " ") (lit "_") (strip country)))
      as [q|e'] eqn:Hq; [discriminate|].
    cbn [bind] in H. injection H as <-. exact (quote_raises _ _ Hq). }
  split; [exact He|]. intros L.
  rewrite (outline_on_failure L country e (fetch_url_failure L country e H)).
  destruct He as [p ->]. reflexivity.
Qed.

(** The name [A] followed by the surrogate U+D800. *)
Lemma surrogate_country_body :
  wikipedia_url [65%N; 55296%N] = Raise (UnicodeEncodeError 1) /\
  get_country_outline (answering 200) [65%N; 55296%N] =
    Ok (lit "Error: boom").
Proof.
  split; [reflexivity|].
  exact (proj2 (unencodable_country_body [65%N; 55296%N]
                  (UnicodeEncodeError 1) eq_refl) (answering 200)).
Defined.

(** X6: the success path end to end.  When the client answers with a
    status outside 400 .. 599 and the parser accepts the body of the
    response, the headings of the page are extracted and the body returned
    is their outline. *)
Theorem success_body_is_outline :
  forall (L : Libraries) (country url : str) (r : Response)
         (nodes : list PageElement),
    wikipedia_url country = Ok url ->
    requests_get L url request_headers = Ok r ->
    (status_code r < 400 \/ 600 <= status_code r)%Z ->
    html_parser L (text r) = Some nodes ->
    exists hs,
      extract_headings L (text r) = Ok hs /\
      get_country_outline L country =
        Ok (generate_markdown_outline country hs).
Proof.
  intros L country url r nodes Hu Hr Hs Hp. eexists. split.
  - apply (extract_headings_returns L (text r) nodes Hp).
  - apply (outline_on_success L country (text r) nodes); [|exact Hp].
    apply (fetch_passes_body L country url r Hu Hr Hs).
Qed.

(** The sample page served with status 200. *)
Lemma sample_page_body :
  get_country_outline serving_sample (lit "Vanuatu") =
    Ok (lit "## Contents" ++ [LF; LF; LF] ++ lit "## Intro" ++ [LF; LF]
        ++ lit "### History" ++ [LF; LF] ++ lit "## Geography").
Proof.
  destruct (success_body_is_outline serving_sample (lit "Vanuatu")
              (lit "https://en.wikipedia.org/wiki/Vanuatu")
              (mkResponse 200 (lit "<html>")) _ eq_refl eq_refl
              (or_introl eq_refl) eq_refl) as (hs & Hx & Hb).
  rewrite Hb. injection Hx as <-. reflexivity.
Defined.

(** X7: the body tells success from failure.  Every status being 200, the
    caller has the body only: it starts with the header [## Contents]
    exactly when the page was fetched and its headings were extracted.
    A failed fetch and a page the parser rejects both give a body that
    does not start with the header. *)
Theorem body_starts_with_header_iff_outlined :
  forall (L : Libraries) (country body : str),
    get_country_outline L country = Ok body ->
    (startswith contents_header body = true <->
     exists html hs, fetch_wikipedia_page L country = Ok html /\
                     extract_headings L html = Ok hs).
Proof.
  intros L country body H.
  destruct (fetch_wikipedia_page L country) as [html|e] eqn:Hf.
  - destruct (html_parser L html) as [nodes|] eqn:Hp.
    + rewrite (outline_on_success L country html nodes Hf Hp) in H.
      injection H as <-. rewrite outline_shape. split.
      * intros _. exists html. eexists. split; [reflexivity|].
        apply (extract_headings_returns L html nodes Hp).
      * intros _.
        change (lit "## Contents" ++ [LF] ++ ?x) with (contents_header ++ x).
        apply startswith_app.
    + pose proof (extract_headings_rejected L html Hp) as He.
      rewrite (outline_on_later_failure L country html _ Hf He) in H.
      injection H as <-. split; [discriminate|].
      intros (html' & hs & Hh & Hx). injection Hh as <-.
      rewrite He in Hx. discriminate.
  - rewrite (outline_on_failure L country e Hf) in H.
    destruct (outline_handler_returns L country e) as [msg Hm].
    rewrite Hm in H. injection H as <-.
    split; [discriminate | intros (html & hs & Hh & _); discriminate].
Qed.

(** A page fetched with status 200 that the parser rejects: the body does
    not start with the header.  And the sample page: it does. *)
Lemma rejected_page_body_has_no_header :
  get_country_outline serving_bad_markup (lit "Vanuatu") =
    Ok (lit "Error: boom") /\
  startswith contents_header (lit "Error: boom") = false /\
  (startswith contents_header (lit "Error: boom") = true <->
   exists html hs,
     fetch_wikipedia_page serving_bad_markup (lit "Vanuatu") = Ok html /\
     extract_headings serving_bad_markup html = Ok hs) /\
  exists html hs,
    fetch_wikipedia_page serving_sample (lit "Vanuatu") = Ok html /\
    extract_headings serving_sample html = Ok hs.
Proof.
  split; [reflexivity|]. split; [reflexivity|]. split.
  - exact (body_starts_with_header_iff_outlined serving_bad_markup
             (lit "Vanuatu") (lit "Error: boom") eq_refl).
  - apply (proj1 (body_starts_with_header_iff_outlined serving_sample
                    (lit "Vanuatu") _ eq_refl)).
    reflexivity.
Defined.



(** ** Extraction, continued *)

Section HeadingTags.

Lemma heading_names_levels (n : str) :
  In n heading_names ->
  n = heading_name (level_of n) /\ (1 <= level_of n <= 6)%Z.
Proof.
  intros H. simpl in H.
  repeat (destruct H as [<- | H]; [split; [reflexivity | vm_compute; split; discriminate]|]).
  contradiction.
Qed.

Lemma heading_name_listed (level : Z) :
  (1 <= level <= 6)%Z ->
  In (heading_name level) heading_names /\ level_of (heading_name level) = level.
Proof.
  intros H.
  assert (E : (level = 1 \/ level = 2 \/ level = 3 \/ level = 4
               \/ level = 5 \/ level = 6)%Z) by lia.
  repeat (destruct E as [-> | E]; [split; [simpl; tauto | reflexivity]|]).
  subst level. split; [simpl; tauto | reflexivity].
Qed.

Lemma name_matches_listed (names : list str) (n : str) (a : list (str * str))
      (cs : list PageElement) :
  name_matches names (Tag n a cs) = true <-> In n names.
Proof.
  unfold name_matches. rewrite existsb_exists. split.
  - intros (x & Hx & E). apply str_eqb_eq in E. now subst.
  - intros H. exists n. split; [exact H | now apply str_eqb_eq].
Qed.

(** What a node contributes, read backwards: a heading comes from a tag
    named after its level, and its text is the trimmed text of the tag. *)
Lemma heading_of_origin (e : PageElement) (h : heading) :
  In h (heading_of e) ->
  exists a cs, e = Tag (heading_name (fst h)) a cs /\
               snd h = strip (get_text e).
Proof.
  destruct e as [n a cs|]; [|contradiction].
  unfold heading_of.
  destruct (name_matches heading_names (Tag n a cs)) eqn:Hm; [|contradiction].
  destruct (kept (Tag n a cs)); [|contradiction].
  cbn [andb]. intros [<- | []]. cbn [fst snd].
  apply name_matches_listed in Hm.
  destruct (heading_names_levels n Hm) as [<- _].
  now exists a, cs.
Qed.

Lemma heading_of_length (e : PageElement) : (List.length (heading_of e) <= 1)%nat.
Proof.
  destruct e as [n a cs|]; [|simpl; lia].
  unfold heading_of.
  destruct (name_matches heading_names (Tag n a cs) && kept (Tag n a cs));
    simpl; lia.
Qed.

Lemma flat_map_heading_length (ts : list PageElement) :
  (List.length (flat_map heading_of ts) <= List.length ts)%nat.
Proof.
  induction ts as [|t ts IH]; [simpl; lia|].
  cbn [flat_map]. rewrite length_app. cbn [List.length].
  pose proof (heading_of_length t). lia.
Qed.

End HeadingTags.

(** X9: extraction invents nothing.  Each heading of the output comes
    from a tag of the document that is named [h] and the digit of the
    heading's level, and its text is the trimmed text of that tag. *)
Theorem extracted_headings_have_origin :
  forall soup : PageElement,
    exists hs,
      extract_from_soup soup = Ok hs /\
      Forall (fun h =>
                exists a cs,
                  In (Tag (heading_name (fst h)) a cs) (descendants soup) /\
                  snd h = strip (get_text (Tag (heading_name (fst h)) a cs)))
             hs.
Proof.
  intros soup. eexists. split; [apply extract_from_soup_spec|].
  apply Forall_forall. intros h Hh.
  apply in_flat_map in Hh as (e & He & Hin).
  destruct (heading_of_origin e h Hin) as (a & cs & -> & Ht).
  now exists a, cs.
Qed.

(** X10: extraction misses nothing.  A tag h1 .. h6 anywhere in the
    document whose trimmed text is non-empty and free of the marker gives
    a heading with its level and its trimmed text. *)
Theorem clean_heading_tag_is_extracted :
  forall (soup : PageElement) (level : Z) (a : list (str * str))
         (cs : list PageElement),
    (1 <= level <= 6)%Z ->
    In (Tag (heading_name level) a cs) (descendants soup) ->
    strip (get_text (Tag (heading_name level) a cs)) <> [] ->
    contains edit_marker (strip (get_text (Tag (heading_name level) a cs)))
      = false ->
    exists hs,
      extract_from_soup soup = Ok hs /\
      In (level, strip (get_text (Tag (heading_name level) a cs))) hs.
Proof.
  intros soup level a cs Hl Hin Hne Hc.
  eexists. split; [apply extract_from_soup_spec|].
  apply in_flat_map. exists (Tag (heading_name level) a cs).
  split; [exact Hin|].
  destruct (heading_name_listed level Hl) as [Hn Hlev].
  unfold heading_of, kept.
  rewrite (proj2 (name_matches_listed heading_names _ a cs) Hn), Hc, Hlev.
  destruct (strip (get_text (Tag (heading_name level) a cs))) eqn:E;
    [contradiction | now left].
Qed.

(** The h3 heading of the sample document, two levels down. *)
Lemma nested_history_is_extracted :
  exists hs,
    extract_from_soup sample_soup = Ok hs /\ In (3%Z, lit "History") hs.
Proof.
  refine (clean_heading_tag_is_extracted sample_soup 3 []
            [Text NavigableString (lit "History")] _ _ _ eq_refl).
  - lia.
  - simpl. do 5 right. left. reflexivity.
  - discriminate.
Defined.

(** X11: the text of every heading extracted is trimmed: trimming it
    again returns it unchanged, although the text inside the tag may have
    had white space around it. *)
Theorem extracted_texts_are_trimmed :
  forall (L : Libraries) (html : str) (nodes : list PageElement),
    html_parser L html = Some nodes ->
    exists hs,
      extract_headings L html = Ok hs /\
      Forall (fun h => strip (snd h) = snd h) hs.
Proof.
  intros L html nodes H. eexists.
  split; [apply (extract_headings_returns L html nodes H)|].
  apply Forall_forall. intros h Hh.
  apply in_flat_map in Hh as (e & _ & Hin).
  destruct (heading_of_origin e h Hin) as (a & cs & _ & ->).
  apply strip_idem.
Qed.

(** A page whose one heading has white space around its title. *)
Lemma padded_title_is_trimmed :
  exists hs,
    extract_headings
      (mkLibraries (fun _ => Some [heading_tag "h2" "  Early history  "])
                   (fun _ _ => Raise IndexError) (fun _ => []))
      (lit "<h2>  Early history  </h2>") = Ok hs /\
    Forall (fun h => strip (snd h) = snd h) hs.
Proof.
  exact (extracted_texts_are_trimmed
           (mkLibraries (fun _ => Some [heading_tag "h2" "  Early history  "])
                        (fun _ _ => Raise IndexError) (fun _ => []))
           (lit "<h2>  Early history  </h2>") _ eq_refl).
Defined.

(** X12: extraction never returns more headings than the document has
    tags named h1 .. h6: a tag gives one heading at most. *)
Theorem at_most_one_heading_per_tag :
  forall soup : PageElement,
    exists hs,
      extract_from_soup soup = Ok hs /\
      (List.length hs <= List.length (find_all heading_names soup))%nat.
Proof.
  intros soup. eexists. split; [apply extract_from_soup_spec|].
  unfold find_all. rewrite <- flat_map_filter_heading.
  apply flat_map_heading_length.
Qed.

(** X13: a tag whose name is not one of h1 .. h6 gives no heading of its
    own, wherever it stands in the document: the output is what the nodes
    before it and the nodes after it (its own descendants among them)
    contribute.  At the head of a document such a tag can be replaced by
    its children. *)
Theorem other_tags_are_transparent :
  (forall (soup : PageElement) (pre post : list PageElement)
          (n : str) (a : list (str * str)) (cs : list PageElement),
      descendants soup = pre ++ Tag n a cs :: post ->
      ~ In n heading_names ->
      extract_from_soup soup =
      Ok (flat_map heading_of pre ++ flat_map heading_of post)) /\
  (forall (n : str) (a : list (str * str)) (cs rest : list PageElement),
      ~ In n heading_names ->
      extract_from_soup (document (Tag n a cs :: rest)) =
      extract_from_soup (document (cs ++ rest))).
Proof.
  assert (Hun : forall n a cs, ~ In n heading_names ->
                               heading_of (Tag n a cs) = []).
  { intros n a cs H. apply heading_of_unmatched.
    apply not_true_is_false. intros E.
    apply name_matches_listed in E. contradiction. }
  split.
  - intros soup pre post n a cs Hd H.
    apply (extract_skips soup pre post _ Hd), Hun, H.
  - intros n a cs rest H. apply extract_splice, Hun, H.
Qed.

(** The tag [h7] of [mixed_soup], inside the [div]: it is the eighth node
    in document order and its text [Deep] gives no heading. *)
Lemma h7_gives_no_heading :
  extract_from_soup mixed_soup =
  Ok [(1%Z, lit "Vanuatu"); (2%Z, lit "Geography")].
Proof.
  rewrite (proj1 other_tags_are_transparent mixed_soup
             (firstn 7 (descendants mixed_soup))
             (skipn 8 (descendants mixed_soup))
             (lit "h7") [] [Text NavigableString (lit "Deep")] eq_refl).
  - reflexivity.
  - simpl. intros H.
    repeat (destruct H as [H | H]; [discriminate H|]). exact H.
Defined.

(** ** Rendering, continued *)

Lemma heading_line_app (level : Z) (text more : str) :
  heading_line (level, text ++ more) = heading_line (level, text) ++ more.
Proof. unfold heading_line. now rewrite <- !app_assoc. Qed.

(** X14: the renderer does not escape the text of a heading.  A heading
    whose text goes on with a blank line and the line of another heading
    renders exactly as the two headings one after the other, so the
    outline does not determine the list it was made from. *)
Theorem outline_does_not_escape_text :
  forall (country : str) (before after : list heading) (level : Z)
         (text : str) (h : heading),
    generate_markdown_outline country
      (before ++ [(level, text ++ [LF; LF] ++ heading_line h)] ++ after) =
    generate_markdown_outline country
      (before ++ [(level, text); h] ++ after).
Proof.
  intros country before after level text h.
  rewrite !outline_shape. do 2 f_equal.
  rewrite !flat_map_app. f_equal. f_equal.
  cbn [flat_map]. rewrite heading_line_app, !app_nil_r.
  now rewrite <- !app_assoc.
Qed.
